(** * Grocy calendar platform: a shallow embedding of
      [custom_components/grocy/calendar.py]

    The module turns the items cached by the Grocy coordinator (chores,
    batteries, meal plan entries, products, tasks) into Home Assistant
    calendar events.  The embedding keeps the shape of the Python code:

    - [datetime.date], [datetime.datetime] and [datetime.timedelta] are
      integers with the range checks of the Python classes written out
      (arithmetic that leaves years 1..9999 raises [OverflowError]);
    - [now()] reads a wall clock, so the code runs in a small monad that
      threads the clock and carries Python exceptions;
    - [isinstance] dispatch is a match on a sum of the Python objects that
      can reach the constructor. *)

From stdpp Require Import base option list strings gmap.
From Stdlib Require Import ZArith Lia DecimalString.

Local Open Scope Z_scope.

(** ** [datetime]: dates, timestamps and durations *)

(** [date.max.toordinal()], the ordinal of 9999-12-31. *)
Definition MAXORDINAL : Z := 3652059.

Definition US_PER_HOUR : Z := 3600000000.
Definition US_PER_DAY : Z := 86400000000.

(** A [datetime.date] is its proleptic Gregorian ordinal
    ([date.toordinal()]); 0001-01-01 has ordinal 1. *)
Record date := mk_date { toordinal : Z }.

Definition date_valid (d : date) : Prop := 1 <= toordinal d <= MAXORDINAL.

Definition date_min : date := mk_date 1.
Definition date_max : date := mk_date MAXORDINAL.

(** A [tzinfo] object is identified by its key: Python compares the
    [tzinfo] attributes of two timestamps by identity. *)
Record tzinfo := mk_tz { tz_key : string }.

(** A [datetime.datetime]: the wall-clock fields as the number of
    microseconds since 0001-01-01T00:00:00, and the [tzinfo] attribute
    ([None] for a naive timestamp). *)
Record datetime := mk_datetime { wall : Z; dt_tzinfo : option tzinfo }.

Definition MAX_WALL : Z := MAXORDINAL * US_PER_DAY.

Definition datetime_valid (t : datetime) : Prop := 0 <= wall t < MAX_WALL.

Definition datetime_min : datetime := mk_datetime 0 None.

(** A [datetime.timedelta], as its total number of microseconds. *)
Record timedelta := mk_timedelta { total_us : Z }.

(** [datetime.timedelta(days=d, hours=h)]. *)
Definition timedelta_of (days hours : Z) : timedelta :=
  mk_timedelta (days * US_PER_DAY + hours * US_PER_HOUR).

(** The normalised [days] attribute of a timedelta (floor division, as
    Python normalises). *)
Definition td_days (d : timedelta) : Z := total_us d / US_PER_DAY.

(** [t.replace(tzinfo=tz)]: the wall-clock fields are kept. *)
Definition replace_tzinfo (t : datetime) (tz : tzinfo) : datetime :=
  mk_datetime (wall t) (Some tz).

(** [t.date()]. *)
Definition datetime_date (t : datetime) : date :=
  mk_date (wall t / US_PER_DAY + 1).

(** [t - delta] on a timestamp: wall-clock arithmetic that keeps the
    [tzinfo]; [None] stands for Python's [OverflowError] when the result
    leaves [datetime.min .. datetime.max]. *)
Definition datetime_sub (t : datetime) (delta : timedelta) : option datetime :=
  let w := wall t - total_us delta in
  if bool_decide (0 <= w < MAX_WALL) then Some (mk_datetime w (dt_tzinfo t))
  else None.

(** [d + delta] on a date: only the [days] of the timedelta count;
    [None] stands for [OverflowError]. *)
Definition date_add (d : date) (delta : timedelta) : option date :=
  let o := toordinal d + td_days delta in
  if bool_decide (0 < o <= MAXORDINAL) then Some (mk_date o) else None.

(** The [start] and [end] of a calendar event hold either class. *)
Inductive date_or_datetime :=
  | OfDate (d : date)
  | OfDateTime (t : datetime).

#[global] Instance tzinfo_eq_dec : EqDecision tzinfo.
Proof. solve_decision. Defined.

(** [a > b] as Python evaluates it.  Two dates compare by ordinal.  Two
    timestamps that are both naive, or both aware with the same [tzinfo],
    compare by their wall-clock fields.  [None] covers the comparisons
    that raise [TypeError] (a date with a timestamp, naive with aware) and
    the one that needs the UTC offsets of two different zones, which is not
    modelled. *)
Definition gt (a b : date_or_datetime) : option bool :=
  match a, b with
  | OfDate x, OfDate y => Some (bool_decide (toordinal y < toordinal x))
  | OfDateTime x, OfDateTime y =>
      if bool_decide (dt_tzinfo x = dt_tzinfo y)
      then Some (bool_decide (wall y < wall x))
      else None
  | _, _ => None
  end.

(** ** Python values on the path *)

(** [int.__str__]: the decimal numeral, with a leading minus sign for a
    negative number. *)
Definition int_str (n : Z) : string := NilZero.string_of_int (Z.to_int n).

(** Truth value of an optional string: [None] and the empty string are
    false. *)
Definition truthy (s : option string) : bool :=
  match s with
  | Some "" => false
  | Some _ => true
  | None => false
  end.

(** [s or None]. *)
Definition or_None (s : option string) : option string :=
  if truthy s then s else None.

(** ** pygrocy data models (read-only views of the coordinator's cache)

    The classes come from the pygrocy package and from [helpers.py]; the
    records keep the attributes that the mapper reads.  A timestamp or a
    date that the upstream item does not carry is [None]. *)

Record Chore := mk_Chore {
  chore_id : Z;
  chore_name : string;
  chore_description : option string;
  next_estimated_execution_time : option datetime;
}.

Record Battery := mk_Battery {
  battery_id : Z;
  battery_name : string;
  battery_description : option string;
  next_estimated_charge_time : option datetime;
}.

Record RecipeItem := mk_RecipeItem {
  recipe_name : string;
  recipe_description : option string;
}.

Record MealPlanItem := mk_MealPlanItem {
  meal_plan_id : Z;
  day : option date;
  recipe : RecipeItem;
}.

Record MealPlanItemWrapper := mk_MealPlanItemWrapper {
  meal_plan : MealPlanItem;
}.

(** [product_notes] stands for the free text that the upstream product
    may carry; the mapper never reads it. *)
Record Product := mk_Product {
  product_id : Z;
  product_name : string;
  product_notes : option string;
  best_before_date : option date;
}.

Record Task := mk_Task {
  task_id : Z;
  task_name : string;
  task_description : option string;
  due_date : option date;
}.

(** What the constructor can be handed: [None], an instance of one of the
    five classes it tests for, or an object of any other class (named by
    the qualified name that [type(item)] prints). *)
Inductive pyobj :=
  | PyNone
  | PyChore (c : Chore)
  | PyBattery (b : Battery)
  | PyMealPlanItemWrapper (m : MealPlanItemWrapper)
  | PyProduct (p : Product)
  | PyTask (t : Task)
  | PyOther (cls : string).

(** [str(type(item))]. *)
Definition type_repr (item : pyobj) : string :=
  "<class '" +:+
  match item with
  | PyNone => "NoneType"
  | PyChore _ => "pygrocy.data_models.chore.Chore"
  | PyBattery _ => "pygrocy.data_models.battery.Battery"
  | PyMealPlanItemWrapper _ => "custom_components.grocy.helpers.MealPlanItemWrapper"
  | PyProduct _ => "pygrocy.data_models.product.Product"
  | PyTask _ => "pygrocy.data_models.task.Task"
  | PyOther cls => cls
  end +:+ "'>".

(** [item is not None]. *)
Definition is_not_None (item : pyobj) : bool :=
  match item with
  | PyNone => false
  | _ => true
  end.

(** The five classes of the [isinstance] chain. *)
Definition supported (item : pyobj) : bool :=
  match item with
  | PyChore _ | PyBattery _ | PyMealPlanItemWrapper _ | PyProduct _ | PyTask _ => true
  | PyNone | PyOther _ => false
  end.

(** The id that the mapper stringifies: the item's own, or the meal
    plan's for a wrapper. *)
Definition source_id (item : pyobj) : option Z :=
  match item with
  | PyChore c => Some (chore_id c)
  | PyBattery b => Some (battery_id b)
  | PyMealPlanItemWrapper m => Some (meal_plan_id (meal_plan m))
  | PyProduct p => Some (product_id p)
  | PyTask t => Some (task_id t)
  | PyNone | PyOther _ => None
  end.

(** ** Home Assistant's [CalendarEvent] *)

Record CalendarEvent := mk_CalendarEvent {
  uid : option string;
  summary : string;
  start : date_or_datetime;
  end_ : date_or_datetime;
  description : option string;
  location : option string;
  recurrence_id : option string;
  rrule : option string;
}.

(** ** Effects: the wall clock and exceptions *)

Inductive exn :=
  | NotImplementedError (msg : string)
  | OverflowError.

(** The world outside the module: what the successive calls of [now()]
    answer, and how many calls were made so far. *)
Record World := mk_World {
  clock : nat -> datetime;
  ticks : nat;
}.

Definition tick (w : World) : World := mk_World (clock w) (S (ticks w)).

(** The reading that the next call of [now()] returns. *)
Definition reading (w : World) : datetime := clock w (ticks w).

(** [now().date()] at the next reading. *)
Definition today (w : World) : date := datetime_date (reading w).

(** A computation reads the clock and either returns or raises. *)
Definition M (A : Type) : Type := World -> (exn + A) * World.

Definition ret {A} (a : A) : M A := fun w => (inr a, w).

Definition raise {A} (e : exn) : M A := fun w => (inl e, w).

Definition bind {A B} (k : A -> M B) (c : M A) : M B :=
  fun w =>
    match c w with
    | (inr a, w') => k a w'
    | (inl e, w') => (inl e, w')
    end.

(** The monad is registered with stdpp's classes, which gives the
    [x ← c; k] notation. *)
#[global] Instance M_ret : MRet M := @ret.
#[global] Instance M_bind : MBind M := @bind.

(** [homeassistant.util.dt.now()]. *)
Definition now : M datetime := fun w => (inr (reading w), tick w).

(** Arithmetic that overflows raises. *)
Definition or_overflow {A} (o : option A) : M A :=
  match o with
  | Some a => mret a
  | None => raise OverflowError
  end.

(** ** The platform *)

Record GrocyCalendarEntityDescription := mk_description {
  key : string;
  name : string;
  icon : string;
  entity_registry_enabled_default : bool;
}.

(** Modelled from the spec: the coordinator and its [GrocyCoordinatorData]
    live in [coordinator.py], outside this module.  The spec gives the
    lookup as [coordinator.data[categoryKey] -> list<variant> | none]: a
    category that is absent from the cache reads as [None], and the cached
    list may hold [None] entries. *)
Record GrocyDataUpdateCoordinator := mk_coordinator {
  data : gmap string (list pyobj);
}.

Record GrocyCalendarEntity := mk_entity {
  coordinator : GrocyDataUpdateCoordinator;
  entity_description : GrocyCalendarEntityDescription;
}.

(** ** Ranges in which the synthesised window exists *)





(** The optional date of a date-only item. *)
Definition date_field (item : pyobj) : option (option date) :=
  match item with
  | PyMealPlanItemWrapper m => Some (day (meal_plan m))
  | PyProduct p => Some (best_before_date p)
  | PyTask t => Some (due_date t)
  | _ => None
  end.

(** ** Sample data *)

Definition UTC : tzinfo := mk_tz "UTC".

(** 2023-04-27T10:00:00+00:00 (the date has ordinal 738637). *)
Definition morning : datetime :=
  mk_datetime (738636 * US_PER_DAY + 10 * US_PER_HOUR) (Some UTC).

(** A clock that stands still at [morning]. *)
Definition still : World := mk_World (fun _ => morning) 0.

Definition sweep : Chore :=
  mk_Chore 12 "Sweep the hall" (Some "") (Some (mk_datetime (738640 * US_PER_DAY) None)).

Definition sweep_undated : Chore := mk_Chore 12 "Sweep the hall" None None.

(** A chore whose next execution reads 0001-01-01T00:00:00. *)
Definition sweep_year_one : Chore :=
  mk_Chore 12 "Sweep the hall" None (Some datetime_min).

Definition remote : Battery :=
  mk_Battery 3 "TV remote" (Some "2 x AAA") (Some (mk_datetime (738700 * US_PER_DAY) None)).

Definition lasagne : MealPlanItemWrapper :=
  mk_MealPlanItemWrapper
    (mk_MealPlanItem 41 (Some (mk_date 738641)) (mk_RecipeItem "Lasagne" (Some "Sunday dinner"))).

Definition milk : Product := mk_Product 7 "Milk" (Some "keep in the fridge") None.

(** A product entered with best-before date 9999-12-31. *)
Definition salt : Product := mk_Product 8 "Salt" None (Some date_max).

Definition call_plumber : Task := mk_Task 5 "Call the plumber" (Some "before noon") None.

(** A cached list with a null entry and an object of a foreign class. *)
Definition mixed_cache : list pyobj :=
  [PyNone; PyTask call_plumber; PyOther "str"; PyProduct milk].

Definition dated_cache : list pyobj :=
  [PyMealPlanItemWrapper lasagne; PyNone; PyChore sweep_undated; PyBattery remote].

Definition tasks_entity (cache : gmap string (list pyobj)) : GrocyCalendarEntity :=
  mk_entity (mk_coordinator cache)
    (mk_description "tasks" "Grocy tasks" "mdi:checkbox-marked-circle-outline" false).

(** ** Further vocabulary for the mapper and the adapter *)

(** An item of a supported kind that carries no time of its own, so that
    the mapper asks the clock. *)
Definition undated (item : pyobj) : bool :=
  match item with
  | PyChore c => bool_decide (next_estimated_execution_time c = None)
  | PyBattery b => bool_decide (next_estimated_charge_time b = None)
  | PyMealPlanItemWrapper m => bool_decide (day (meal_plan m) = None)
  | PyProduct p => bool_decide (best_before_date p = None)
  | PyTask t => bool_decide (due_date t = None)
  | PyNone | PyOther _ => false
  end.

(** The text an item offers as description; a product offers none. *)
Definition source_description (item : pyobj) : option string :=
  match item with
  | PyChore c => chore_description c
  | PyBattery b => battery_description b
  | PyMealPlanItemWrapper m => recipe_description (recipe (meal_plan m))
  | PyTask t => task_description t
  | PyProduct _ | PyNone | PyOther _ => None
  end.

(** The same entity over another cache. *)
Definition with_cache (self : GrocyCalendarEntity) (cache : gmap string (list pyobj))
  : GrocyCalendarEntity :=
  mk_entity (mk_coordinator cache) (entity_description self).

(** ** Platform setup: the descriptions and [async_setup_entry] *)

(** The dataclass [GrocyCalendarEntityDescription] also has callable
    fields.  [exists_fn] is carried beside the plain fields;
    [attributes_fn] is never called in the module and is left out. *)
Record CalendarDescription := mk_calendar {
  fields : GrocyCalendarEntityDescription;
  exists_fn : list string -> bool;
}.

(** The constructor of the dataclass with its defaults:
    [exists_fn = lambda _: True] and
    [entity_registry_enabled_default = False]. *)
Definition GrocyCalendarEntityDescription_init (key name icon : string)
    (exists_fn : option (list string -> bool)) (enabled_default : option bool)
  : CalendarDescription :=
  mk_calendar (mk_description key name icon (default false enabled_default))
              (default (fun _ => true) exists_fn).

(** Modelled from the spec: the coordinator class lives in
    [coordinator.py] and the entity constructor in [entity.py], outside
    this module.  The spec gives [coordinator.availableEntities], used once
    at setup to decide which descriptors are active, and
    [coordinator.entities], an append-only registry to which setup adds
    each constructed adapter; an adapter is created from the coordinator
    and one descriptor.  The record holds the cache that the entities read,
    the available categories and the registry.  An entity refers to its
    coordinator; in the model it holds the cache, the one part its methods
    read. *)
Record Coordinator := mk_Coordinator {
  cache : GrocyDataUpdateCoordinator;
  available_entities : list string;
  coordinator_entities : list GrocyCalendarEntity;
}.

(** [coordinator.entities.append(entity)]. *)
Definition append_entity (c : Coordinator) (entity : GrocyCalendarEntity) : Coordinator :=
  mk_Coordinator (cache c) (available_entities c) (coordinator_entities c ++ [entity]).

(** [hass.data], a dictionary: a missing key raises [KeyError]. *)
Record HomeAssistant := mk_hass {
  hass_data : gmap string Coordinator;
}.

Inductive setup_exn :=
  | KeyError (k : string).

(** What a run of setup leaves behind: the coordinator with its registry
    extended, the arguments of the one call of [async_add_entities], and
    the calls of [_LOGGER.debug]. *)
Record SetupResult := mk_SetupResult {
  coordinator_after : Coordinator;
  added : list GrocyCalendarEntity;
  update_before_add : bool;
  debug_log : list string;
}.

(** The message of
    [_LOGGER.debug("Entity description '%s' is not available", key)]. *)
Definition not_available (k : string) : string :=
  "Entity description '" +:+ k +:+ "' is not available".

(** One turn of the loop over the descriptions; the state is the
    coordinator, the local list [entities] and the log. *)
Definition setup_step (st : Coordinator * list GrocyCalendarEntity * list string)
    (description : CalendarDescription)
  : Coordinator * list GrocyCalendarEntity * list string :=
  let '(coordinator, entities, log) := st in
  if exists_fn description (available_entities coordinator)
  then
    let entity := mk_entity (cache coordinator) (fields description) in
    (append_entity coordinator entity, entities ++ [entity], log)
  else
    (coordinator, entities, log ++ [not_available (key (fields description))]).

(** The names that the module imports from [const.py]. *)
Record Const := mk_Const {
  ATTR_BATTERIES : string;
  ATTR_CHORES : string;
  ATTR_EXPIRING_PRODUCTS : string;
  ATTR_MEAL_PLAN : string;
  ATTR_TASKS : string;
  DOMAIN : string;
}.

(** The entities that a pass over [descriptions] creates for a
    coordinator, and the messages it logs for the others. *)
Definition new_entities (c : Coordinator) (descriptions : list CalendarDescription)
  : list GrocyCalendarEntity :=
  (fun d => mk_entity (cache c) (fields d))
    <$> List.filter (fun d => exists_fn d (available_entities c)) descriptions.

Definition new_log (c : Coordinator) (descriptions : list CalendarDescription)
  : list string :=
  (fun d => not_available (key (fields d)))
    <$> List.filter (fun d => negb (exists_fn d (available_entities c))) descriptions.

Section Setup.

(** The constants of [const.py], which is outside the module. *)
Variable const : Const.

(** [key in entities] on a list of strings. *)
Definition listed (k : string) (entities : list string) : bool :=
  bool_decide (k ∈ entities).

Definition CALENDARS : list CalendarDescription :=
  [ GrocyCalendarEntityDescription_init (ATTR_BATTERIES const) "Grocy batteries"
      "mdi:battery" (Some (listed (ATTR_BATTERIES const))) None;
    GrocyCalendarEntityDescription_init (ATTR_CHORES const) "Grocy chores"
      "mdi:broom" (Some (listed (ATTR_CHORES const))) None;
    GrocyCalendarEntityDescription_init (ATTR_EXPIRING_PRODUCTS const)
      "Grocy expiring products" "mdi:clock-fast"
      (Some (listed (ATTR_EXPIRING_PRODUCTS const))) None;
    GrocyCalendarEntityDescription_init (ATTR_MEAL_PLAN const) "Grocy meal plan"
      "mdi:silverware-variant" (Some (listed (ATTR_MEAL_PLAN const))) None;
    GrocyCalendarEntityDescription_init (ATTR_TASKS const) "Grocy tasks"
      "mdi:checkbox-marked-circle-outline" (Some (listed (ATTR_TASKS const))) None ].

(** The category keys in the order of the table. *)
Definition CALENDAR_KEYS : list string :=
  [ATTR_BATTERIES const; ATTR_CHORES const; ATTR_EXPIRING_PRODUCTS const;
   ATTR_MEAL_PLAN const; ATTR_TASKS const].

(** [async_setup_entry].  The [config_entry] is only handed on to the
    constructor of the entity and is left out. *)
Definition async_setup_entry (hass : HomeAssistant) : setup_exn + SetupResult :=
  match hass_data hass !! DOMAIN const with
  | None => inl (KeyError (DOMAIN const))
  | Some coordinator =>
      let '(coordinator, entities, log) :=
        foldl setup_step (coordinator, [], []) CALENDARS in
      inr (mk_SetupResult coordinator entities true log)
  end.

End Setup.

(** Sample installations. *)
Definition fresh_coordinator (available : list string) : Coordinator :=
  mk_Coordinator (mk_coordinator ∅) available [].

Definition sample_hass (available : list string) : HomeAssistant :=
  mk_hass {[ "grocy" := fresh_coordinator available ]}.

Definition water_plants : Task :=
  mk_Task 6 "Water the plants" (Some "") (Some (mk_date 738640)).


(** The events of [dated_cache] when the clock stands at [morning]. *)
Definition lasagne_event : CalendarEvent :=
  mk_CalendarEvent (Some "41") "Lasagne" (OfDate (mk_date 738641)) (OfDate (mk_date 738642))
    (Some "Sunday dinner") None None None.

Definition sweep_undated_event : CalendarEvent :=
  mk_CalendarEvent (Some "12") "Sweep the hall"
    (OfDateTime (mk_datetime (wall morning - US_PER_HOUR) (Some UTC))) (OfDateTime morning)
    None None None None.

Definition remote_event : CalendarEvent :=
  mk_CalendarEvent (Some "3") "TV remote"
    (OfDateTime (mk_datetime (738700 * US_PER_DAY - US_PER_HOUR) (Some UTC)))
    (OfDateTime (mk_datetime (738700 * US_PER_DAY) (Some UTC)))
    (Some "2 x AAA") None None None.

Definition dated_events : list CalendarEvent :=
  [lasagne_event; sweep_undated_event; remote_event].

Definition sweep_event : CalendarEvent :=
  mk_CalendarEvent (Some "12") "Sweep the hall"
    (OfDateTime (mk_datetime (738640 * US_PER_DAY - US_PER_HOUR) (Some UTC)))
    (OfDateTime (mk_datetime (738640 * US_PER_DAY) (Some UTC)))
    None None None None.

Definition call_plumber_event : CalendarEvent :=
  mk_CalendarEvent (Some "5") "Call the plumber" (OfDate (mk_date 738637))
    (OfDate (mk_date 738638)) (Some "before noon") None None None.

(** A cached list in which the second item has no day after it. *)
Definition spoilt_cache : list pyobj :=
  [PyTask call_plumber; PyProduct salt; PyChore sweep].

Definition chores_entity (cache : gmap string (list pyobj)) : GrocyCalendarEntity :=
  mk_entity (mk_coordinator cache) (mk_description "chores" "Grocy chores" "mdi:broom" false).

(** What setup leaves when chores and tasks are available. *)
Definition chores_and_tasks : list GrocyCalendarEntity :=
  [ chores_entity ∅; tasks_entity ∅ ].

Definition sample_result (available : list string) : SetupResult :=
  mk_SetupResult
    (mk_Coordinator (mk_coordinator ∅) available chores_and_tasks)
    chores_and_tasks true
    [ not_available "batteries"; not_available "expiring_products";
      not_available "meal_plan" ].

Definition grocy_const : Const :=
  mk_Const "batteries" "chores" "expiring_products" "meal_plan" "tasks" "grocy".

Section Calendar.

(** The binding that [from homeassistant.util.dt import DEFAULT_TIME_ZONE]
    gives the module. *)
Variable DEFAULT_TIME_ZONE : tzinfo.

(** [GrocyCalendarEvent.__init__]: the event mapper.  The [isinstance]
    chain is the match; a timestamp or date that is present is truthy. *)
Definition GrocyCalendarEvent (item : pyobj) (key : string) : M CalendarEvent :=
  match item with
  | PyChore c =>
      end' ← match next_estimated_execution_time c with
             | Some t => mret (replace_tzinfo t DEFAULT_TIME_ZONE)
             | None => now
             end;
      start' ← or_overflow (datetime_sub end' (timedelta_of 0 1));
      mret {| uid := Some (int_str (chore_id c));
              summary := chore_name c;
              start := OfDateTime start';
              end_ := OfDateTime end';
              description := or_None (chore_description c);
              location := None;
              recurrence_id := None;
              rrule := None |}
  | PyBattery b =>
      end' ← match next_estimated_charge_time b with
             | Some t => mret (replace_tzinfo t DEFAULT_TIME_ZONE)
             | None => now
             end;
      start' ← or_overflow (datetime_sub end' (timedelta_of 0 1));
      mret {| uid := Some (int_str (battery_id b));
              summary := battery_name b;
              start := OfDateTime start';
              end_ := OfDateTime end';
              description := or_None (battery_description b);
              location := None;
              recurrence_id := None;
              rrule := None |}
  | PyMealPlanItemWrapper m =>
      start' ← match day (meal_plan m) with
               | Some d => mret d
               | None => n ← now; mret (datetime_date n)
               end;
      end' ← or_overflow (date_add start' (timedelta_of 1 0));
      mret {| uid := Some (int_str (meal_plan_id (meal_plan m)));
              summary := recipe_name (recipe (meal_plan m));
              start := OfDate start';
              end_ := OfDate end';
              description := or_None (recipe_description (recipe (meal_plan m)));
              location := None;
              recurrence_id := None;
              rrule := None |}
  | PyProduct p =>
      start' ← match best_before_date p with
               | Some d => mret d
               | None => n ← now; mret (datetime_date n)
               end;
      end' ← or_overflow (date_add start' (timedelta_of 1 0));
      mret {| uid := Some (int_str (product_id p));
              summary := product_name p;
              start := OfDate start';
              end_ := OfDate end';
              description := None;
              location := None;
              recurrence_id := None;
              rrule := None |}
  | PyTask t =>
      start' ← match due_date t with
               | Some d => mret d
               | None => n ← now; mret (datetime_date n)
               end;
      end' ← or_overflow (date_add start' (timedelta_of 1 0));
      mret {| uid := Some (int_str (task_id t));
              summary := task_name t;
              start := OfDate start';
              end_ := OfDate end';
              description := or_None (task_description t);
              location := None;
              recurrence_id := None;
              rrule := None |}
  | PyNone | PyOther _ =>
      raise (NotImplementedError (key +:+ " => " +:+ type_repr item))
  end.

(** A call of the constructor with arguments left out: [item] defaults to
    [None] and [key] to the empty string. *)
Definition GrocyCalendarEvent_call (item : option pyobj) (key : option string)
  : M CalendarEvent :=
  GrocyCalendarEvent (default PyNone item) (default "" key).

(** [GrocyCalendarEntity.event]: the body is [return None]. *)
Definition event (self : GrocyCalendarEntity) : option CalendarEvent := None.

(** The comprehension
    [[GrocyCalendarEvent(item, key) for item in entity_data if item is not None]]:
    items are visited in order, and the first exception ends the loop. *)
Fixpoint comprehension (key : string) (entity_data : list pyobj)
  : M (list CalendarEvent) :=
  match entity_data with
  | [] => mret []
  | item :: rest =>
      if is_not_None item
      then ev ← GrocyCalendarEvent item key;
           evs ← comprehension key rest;
           mret (ev :: evs)
      else comprehension key rest
  end.

(** [GrocyCalendarEntity.async_get_events].  The [hass] argument is not
    used and is left out.  [entity_data] is false when it is [None] or the
    empty list. *)
Definition async_get_events (self : GrocyCalendarEntity)
    (start_date end_date : datetime) : M (list CalendarEvent) :=
  let entity_data := data (coordinator self) !! key (entity_description self) in
  match entity_data with
  | Some (item :: rest) =>
      comprehension (key (entity_description self)) (item :: rest)
  | Some [] | None => mret []
  end.

(** The wording of the specification for [eventsInRange]: keep the
    non-null items of the cached list and map each through the event
    mapper, in order. *)
Definition map_non_null (key : string) (cached : list pyobj)
  : M (list CalendarEvent) :=
  mapM (fun item => GrocyCalendarEvent item key) (List.filter is_not_None cached).


(** ** Proof support *)

Ltac run :=
  unfold GrocyCalendarEvent_call, GrocyCalendarEvent, or_overflow, now, raise;
  unfold mbind, M_bind, bind, mret, M_ret, ret; simpl.

Example int_str_samples :
  int_str 0 = "0" /\ int_str 42 = "42" /\ int_str (-120) = "-120".
Proof. repeat split. Qed.

Lemma td_days_one_day : td_days (timedelta_of 1 0) = 1.
Proof. reflexivity. Qed.

Lemma total_us_one_hour : total_us (timedelta_of 0 1) = US_PER_HOUR.
Proof. reflexivity. Qed.


Lemma datetime_sub_hour_inv t s :
  datetime_sub t (timedelta_of 0 1) = Some s ->
  wall s = wall t - US_PER_HOUR /\ dt_tzinfo s = dt_tzinfo t.
Proof.
  unfold datetime_sub. rewrite total_us_one_hour.
  case_bool_decide; [|discriminate]. intros [= <-]. split; reflexivity.
Qed.


Lemma date_add_day_inv d e :
  date_add d (timedelta_of 1 0) = Some e -> toordinal e = toordinal d + 1.
Proof.
  unfold date_add. rewrite td_days_one_day.
  case_bool_decide; [|discriminate]. intros [= <-]. reflexivity.
Qed.





(** ** The event mapper *)



(** C3 (as amended): for every date-only item (meal plan entry, product,
    task) whose date field is absent, the start of the mapped event
    defaults to today and its end is exactly one day after its start:
    start = today, end = today plus one day ([e], the result of Python's
    date addition).  The clock is read once. *)
Theorem undated_item_starts_today item key w e :
  date_field item = Some None ->
  date_add (today w) (timedelta_of 1 0) = Some e ->
  exists ev,
    GrocyCalendarEvent item key w = (inr ev, tick w)
    /\ start ev = OfDate (today w)
    /\ end_ ev = OfDate e
    /\ toordinal e = toordinal (today w) + 1.
Proof.
  intros Hfield Hadd.
  pose proof (date_add_day_inv _ _ Hadd) as Hord.
  destruct item as [| | |m|p|t|]; try discriminate Hfield;
    injection Hfield as Hfield; run; rewrite Hfield; simpl;
    fold (reading w); fold (today w); rewrite Hadd;
    eexists; repeat split; assumption.
Qed.

(** C5: mapping a meal plan entry with plan day [D] yields an event with
    start = [D], end = [D] plus one day ([e], the result of Python's date
    addition), title equal to the recipe's name and description equal to
    the recipe's description, or none when that is empty or absent.  The
    clock is not read. *)
Theorem meal_plan_entry_with_day m key w D e :
  day (meal_plan m) = Some D ->
  date_add D (timedelta_of 1 0) = Some e ->
  exists ev,
    GrocyCalendarEvent (PyMealPlanItemWrapper m) key w = (inr ev, w)
    /\ start ev = OfDate D
    /\ end_ ev = OfDate e
    /\ toordinal e = toordinal D + 1
    /\ summary ev = recipe_name (recipe (meal_plan m))
    /\ description ev =
         match recipe_description (recipe (meal_plan m)) with
         | Some text => if decide (text = "") then None else Some text
         | None => None
         end.
Proof.
  intros Hday Hadd.
  pose proof (date_add_day_inv _ _ Hadd) as Hord.
  run. rewrite Hday. simpl. rewrite Hadd.
  eexists. repeat split; try assumption.
  cbn [description]. unfold or_None, truthy.
  destruct (recipe_description (recipe (meal_plan m))) as [[|a text]|]; reflexivity.
Qed.

(** C6: for every product, the mapped event has no description, whatever
    the product carries; and for a product with no best-before date the
    event has start = today and end = today plus one day ([e], the result
    of Python's date addition from the start), the clock being read
    once. *)
Theorem product_event p key w e :
  date_add (default (today w) (best_before_date p)) (timedelta_of 1 0) = Some e ->
  exists ev w',
    GrocyCalendarEvent (PyProduct p) key w = (inr ev, w')
    /\ description ev = None
    /\ (best_before_date p = None ->
        start ev = OfDate (today w)
        /\ end_ ev = OfDate e
        /\ toordinal e = toordinal (today w) + 1
        /\ w' = tick w).
Proof.
  intros Hadd. run.
  destruct (best_before_date p) as [D|] eqn:Hbbd; simpl in *;
    [|fold (reading w); fold (today w)]; rewrite Hadd;
    eexists _, _; (split; [reflexivity|]); (split; [reflexivity|]).
  - discriminate.
  - intros _. cbn [start end_]. pose proof (date_add_day_inv _ _ Hadd).
    repeat split; assumption.
Qed.

(** C7: for every item whose runtime type is none of the five supported
    kinds, the mapper raises [NotImplementedError] with the message
    [key => <class ...>], which names the category key and the runtime type
    of the item; and nothing in the module catches it: when the item sits
    in the cached list and every item before it was mapped,
    [async_get_events] ends with the same exception. *)
Theorem unsupported_item_raises item category w :
  supported item = false ->
  GrocyCalendarEvent item category w
  = (inl (NotImplementedError (category +:+ " => " +:+ type_repr item)), w)
  /\ (forall self start_date end_date before after evs w1,
        is_not_None item = true ->
        data (coordinator self) !! key (entity_description self)
        = Some (before ++ item :: after) ->
        comprehension (key (entity_description self)) before w = (inr evs, w1) ->
        async_get_events self start_date end_date w
        = (inl (NotImplementedError
                  (key (entity_description self) +:+ " => " +:+ type_repr item)), w1)).
Proof.
  intros Hsup.
  assert (Hraise : forall k w0, GrocyCalendarEvent item k w0
    = (inl (NotImplementedError (k +:+ " => " +:+ type_repr item)), w0)).
  { intros k w0. destruct item; try discriminate Hsup; reflexivity. }
  split; [apply Hraise|].
  intros self start_date end_date before after evs w1 Hnn Hdata Hpre.
  unfold async_get_events. rewrite Hdata.
  set (k := key (entity_description self)) in *.
  assert (Hcomp : comprehension k (before ++ item :: after) w
                  = (inl (NotImplementedError (k +:+ " => " +:+ type_repr item)), w1)).
  { clear Hdata. revert evs w w1 Hpre.
    induction before as [|x before IH]; intros evs w w1 Hpre.
    - injection Hpre as _ <-. simpl. rewrite Hnn.
      unfold mbind, M_bind, bind. rewrite Hraise. reflexivity.
    - simpl in *. destruct (is_not_None x).
      + unfold mbind, M_bind, bind in *.
        destruct (GrocyCalendarEvent x k w) as [[ex|ev] w2]; [discriminate|].
        destruct (comprehension k before w2) as [[ex|evs'] w3] eqn:Hrest;
          [discriminate|].
        injection Hpre as _ <-.
        rewrite (IH _ _ _ Hrest). reflexivity.
      + eapply IH, Hpre. }
  destruct (before ++ item :: after) eqn:Hl; [|exact Hcomp].
  destruct before; discriminate.
Qed.

(** C10: a null item falls through every branch of the mapper: the call
    raises [NotImplementedError] and never yields an event, both for an
    explicit [None] and for a call that leaves the item (and the key) out. *)
Theorem null_item_raises key okey w :
  GrocyCalendarEvent PyNone key w
  = (inl (NotImplementedError (key +:+ " => <class 'NoneType'>")), w)
  /\ GrocyCalendarEvent_call None okey w
    = (inl (NotImplementedError (default "" okey +:+ " => <class 'NoneType'>")), w)
  /\ (forall ev w', GrocyCalendarEvent PyNone key w <> (inr ev, w'))
  /\ (forall ev w', GrocyCalendarEvent_call None okey w <> (inr ev, w')).
Proof.
  repeat split; discriminate.
Qed.

(** ** The calendar entity *)

Lemma comprehension_map_non_null k cached w :
  comprehension k cached w = map_non_null k cached w.
Proof.
  unfold map_non_null. revert w.
  induction cached as [|item rest IH]; intros w; [reflexivity|].
  simpl. destruct (is_not_None item); [|apply IH].
  simpl. unfold mbind, M_bind, bind.
  destruct (GrocyCalendarEvent item k w) as [[ex|ev] w1]; [reflexivity|].
  rewrite IH. reflexivity.
Qed.

Lemma mapM_events_pointwise k items :
  forall w evs w',
    mapM (fun item => GrocyCalendarEvent item k) items w = (inr evs, w') ->
    Forall2 (fun item ev => exists w1 w2, GrocyCalendarEvent item k w1 = (inr ev, w2))
            items evs.
Proof.
  induction items as [|item rest IH]; intros w evs w' Hrun; simpl in Hrun.
  - injection Hrun as <- _. constructor.
  - unfold mbind, M_bind, bind in Hrun.
    destruct (GrocyCalendarEvent item k w) as [[ex|ev] w1] eqn:Hitem; [discriminate|].
    destruct (mapM (M:=M) _ rest w1) as [[ex|evs'] w2] eqn:Hrest; [discriminate|].
    injection Hrun as <- _. constructor; [eauto|eapply IH, Hrest].
Qed.

(** C4: when the adapter's category key is absent from the coordinator's
    cache, [async_get_events] returns the empty list: it does not return
    none, does not raise, and does not read the clock. *)
Theorem absent_category_no_events self start_date end_date w :
  data (coordinator self) !! key (entity_description self) = None ->
  async_get_events self start_date end_date w = (inr [], w).
Proof.
  intros Habsent. unfold async_get_events. rewrite Habsent. reflexivity.
Qed.

(** C8: for every cached list of the adapter's category,
    [async_get_events] is the mapping of every non-null item of the list
    through the event mapper, in the order of the list (an exception of the
    mapper included); the events it returns are, position by position, the
    mapper's events for the non-null items; and the requested window has no
    effect: two calls with different windows over the same cache, from the
    same state of the clock, give the same outcome. *)
Theorem events_are_mapped_cache self start_date end_date w cached :
  data (coordinator self) !! key (entity_description self) = Some cached ->
  async_get_events self start_date end_date w
  = map_non_null (key (entity_description self)) cached w
  /\ (forall evs w',
        async_get_events self start_date end_date w = (inr evs, w') ->
        Forall2 (fun item ev =>
                   exists w1 w2,
                     GrocyCalendarEvent item (key (entity_description self)) w1
                     = (inr ev, w2))
                (List.filter is_not_None cached) evs)
  /\ (forall start_date' end_date',
        async_get_events self start_date' end_date' w
        = async_get_events self start_date end_date w).
Proof.
  intros Hdata.
  assert (Heq : async_get_events self start_date end_date w
                = map_non_null (key (entity_description self)) cached w).
  { unfold async_get_events. rewrite Hdata.
    destruct cached as [|item rest]; [reflexivity|].
    apply comprehension_map_non_null. }
  split; [exact Heq|]. split.
  - intros evs w' Hrun. rewrite Heq in Hrun.
    eapply mapM_events_pointwise, Hrun.
  - reflexivity.
Qed.

(** C9: the adapter's [event] property is none for every adapter and every
    state of the cache. *)
Theorem event_is_none self : event self = None.
Proof. reflexivity. Qed.

End Calendar.

(** ** The theorems at concrete inputs *)


(** The same edge on the timestamp side: a chore due at
    0001-01-01T00:00:00 has no hour before it. *)
Example chore_in_year_one_overflows :
  GrocyCalendarEvent UTC (PyChore sweep_year_one) "chores" still
  = (inl OverflowError, still).
Proof. reflexivity. Qed.



(** C3 as stated fails: for a task without a due date, read at
    2023-04-27T10:00, the event does not end today and does not start the
    day before; it starts today and ends tomorrow. *)
Lemma undated_task_does_not_end_today :
  date_field (PyTask call_plumber) = Some None
  /\ exists ev,
       GrocyCalendarEvent UTC (PyTask call_plumber) "tasks" still = (inr ev, tick still)
       /\ end_ ev <> OfDate (today still)
       /\ start ev <> OfDate (mk_date (toordinal (today still) - 1))
       /\ start ev = OfDate (today still)
       /\ end_ ev = OfDate (mk_date (toordinal (today still) + 1)).
Proof.
  split; [reflexivity|].
  eexists. split; [reflexivity|].
  repeat split; vm_compute; congruence.
Qed.

Lemma undated_item_starts_today_witness :
  exists ev,
    GrocyCalendarEvent UTC (PyTask call_plumber) "tasks" still = (inr ev, tick still)
    /\ start ev = OfDate (today still)
    /\ end_ ev = OfDate (mk_date 738638)
    /\ toordinal (mk_date 738638) = toordinal (today still) + 1.
Proof.
  apply (undated_item_starts_today UTC (PyTask call_plumber) "tasks" still (mk_date 738638));
    reflexivity.
Defined.

Lemma meal_plan_entry_with_day_witness :
  exists ev,
    GrocyCalendarEvent UTC (PyMealPlanItemWrapper lasagne) "meal_plan" still = (inr ev, still)
    /\ start ev = OfDate (mk_date 738641)
    /\ end_ ev = OfDate (mk_date 738642)
    /\ toordinal (mk_date 738642) = toordinal (mk_date 738641) + 1
    /\ summary ev = "Lasagne"
    /\ description ev = Some "Sunday dinner".
Proof.
  apply (meal_plan_entry_with_day UTC lasagne "meal_plan" still (mk_date 738641) (mk_date 738642));
    reflexivity.
Defined.

Lemma product_event_witness :
  exists ev w',
    GrocyCalendarEvent UTC (PyProduct milk) "expiring_products" still = (inr ev, w')
    /\ description ev = None
    /\ (best_before_date milk = None ->
        start ev = OfDate (today still)
        /\ end_ ev = OfDate (mk_date 738638)
        /\ toordinal (mk_date 738638) = toordinal (today still) + 1
        /\ w' = tick still).
Proof.
  apply (product_event UTC milk "expiring_products" still (mk_date 738638)).
  reflexivity.
Defined.

Lemma unsupported_item_raises_witness :
  GrocyCalendarEvent UTC (PyOther "str") "tasks" still
  = (inl (NotImplementedError "tasks => <class 'str'>"), still)
  /\ async_get_events UTC (tasks_entity {[ "tasks" := mixed_cache ]}) morning morning still
    = (inl (NotImplementedError "tasks => <class 'str'>"), tick still).
Proof.
  split.
  - apply (proj1 (unsupported_item_raises UTC (PyOther "str") "tasks" still eq_refl)).
  - apply (proj2 (unsupported_item_raises UTC (PyOther "str") "tasks" still eq_refl)
             (tasks_entity {[ "tasks" := mixed_cache ]}) morning morning
             [PyNone; PyTask call_plumber] [PyProduct milk]
             [mk_CalendarEvent (Some "5") "Call the plumber"
                (OfDate (mk_date 738637)) (OfDate (mk_date 738638))
                (Some "before noon") None None None]
             (tick still));
      reflexivity.
Defined.

Lemma absent_category_no_events_witness :
  async_get_events UTC (tasks_entity {[ "chores" := dated_cache ]}) morning morning still
  = (inr [], still).
Proof.
  apply (absent_category_no_events UTC (tasks_entity {[ "chores" := dated_cache ]})).
  reflexivity.
Defined.

Lemma events_are_mapped_cache_witness :
  async_get_events UTC (tasks_entity {[ "tasks" := dated_cache ]}) datetime_min morning still
  = map_non_null UTC "tasks" dated_cache still
  /\ (forall evs w',
        async_get_events UTC (tasks_entity {[ "tasks" := dated_cache ]}) datetime_min morning still
        = (inr evs, w') ->
        Forall2 (fun item ev =>
                   exists w1 w2, GrocyCalendarEvent UTC item "tasks" w1 = (inr ev, w2))
                (List.filter is_not_None dated_cache) evs)
  /\ (forall start_date' end_date',
        async_get_events UTC (tasks_entity {[ "tasks" := dated_cache ]}) start_date' end_date' still
        = async_get_events UTC (tasks_entity {[ "tasks" := dated_cache ]}) datetime_min morning still).
Proof.
  apply (events_are_mapped_cache UTC (tasks_entity {[ "tasks" := dated_cache ]})
           datetime_min morning still dated_cache).
  reflexivity.
Defined.

(** * Further properties of the module *)

(** ** The event mapper, case by case *)

Ltac unfold_mapper :=
  unfold GrocyCalendarEvent, or_overflow, now, raise,
    mbind, M_bind, bind, mret, M_ret, ret in *;
  simpl in *.

(** Splits on the kind of the item, on the presence of its time field and
    on the outcome of the window arithmetic. *)
Ltac mapper_cases item :=
  destruct item as [ | [? ? ? [?|]] | [? ? ? [?|]] | [[? [?|] [? ?]]]
                     | [? ? ? [?|]] | [? ? ? [?|]] | ? ];
  unfold_mapper;
  repeat match goal with
    | H : context [match datetime_sub ?t ?d with Some _ => _ | None => _ end] |- _ =>
        let E := fresh "Hsub" in destruct (datetime_sub t d) eqn:E; simpl in H
    | |- context [match datetime_sub ?t ?d with Some _ => _ | None => _ end] =>
        let E := fresh "Hsub" in destruct (datetime_sub t d) eqn:E; simpl
    | H : context [match date_add ?t ?d with Some _ => _ | None => _ end] |- _ =>
        let E := fresh "Hadd" in destruct (date_add t d) eqn:E; simpl in H
    | |- context [match date_add ?t ?d with Some _ => _ | None => _ end] =>
        let E := fresh "Hadd" in destruct (date_add t d) eqn:E; simpl
    end.

Lemma datetime_sub_valid t delta s :
  datetime_sub t delta = Some s -> datetime_valid s.
Proof.
  unfold datetime_sub. case_bool_decide; [|discriminate].
  intros [= <-]. assumption.
Qed.

Lemma date_add_valid d delta e : date_add d delta = Some e -> date_valid e.
Proof.
  unfold date_add. case_bool_decide; [|discriminate].
  intros [= <-]. unfold date_valid. simpl. lia.
Qed.

Lemma date_add_day_None d :
  date_valid d -> (date_add d (timedelta_of 1 0) = None <-> d = date_max).
Proof.
  intros Hvalid. unfold date_valid in Hvalid. unfold date_add.
  rewrite td_days_one_day. destruct d as [o]. simpl in *.
  case_bool_decide; split; try discriminate; try reflexivity.
  - intros [= ->]. unfold MAXORDINAL in *. lia.
  - intros _. unfold date_max. f_equal. lia.
Qed.


Lemma hour_window_shape t s :
  datetime_sub t (timedelta_of 0 1) = Some s ->
  gt (OfDateTime t) (OfDateTime s) = Some true
  /\ (wall t = wall s + US_PER_HOUR /\ dt_tzinfo s = dt_tzinfo t /\ datetime_valid s).
Proof.
  intros Hsub. pose proof (datetime_sub_valid _ _ _ Hsub) as Hvalid.
  destruct (datetime_sub_hour_inv _ _ Hsub) as [Hwall Htz].
  split; [|repeat split; [lia|assumption|apply Hvalid|apply Hvalid]].
  unfold gt. rewrite bool_decide_eq_true_2 by congruence.
  rewrite bool_decide_eq_true_2; [reflexivity|]. unfold US_PER_HOUR in Hwall. lia.
Qed.

Lemma day_window_shape d e :
  date_add d (timedelta_of 1 0) = Some e ->
  gt (OfDate e) (OfDate d) = Some true
  /\ (toordinal e = toordinal d + 1 /\ date_valid e).
Proof.
  intros Hadd. pose proof (date_add_valid _ _ _ Hadd) as Hvalid.
  pose proof (date_add_day_inv _ _ Hadd) as Hord.
  split; [|split; assumption].
  unfold gt. rewrite bool_decide_eq_true_2; [reflexivity|]. lia.
Qed.

Section MapperProperties.

Variable DEFAULT_TIME_ZONE : tzinfo.

(** X1: a task with due date [D] is mapped to the all-day event of that
    day: start = [D], end = [D] plus one day ([e], the result of Python's
    date addition), title = the task's name, uid = its stringified id, and
    description = the task's description, or none when that is empty or
    absent.  The clock is not read. *)
Theorem task_with_due_date t key w D e :
  due_date t = Some D ->
  date_add D (timedelta_of 1 0) = Some e ->
  exists ev,
    GrocyCalendarEvent DEFAULT_TIME_ZONE (PyTask t) key w = (inr ev, w)
    /\ start ev = OfDate D
    /\ end_ ev = OfDate e
    /\ toordinal e = toordinal D + 1
    /\ summary ev = task_name t
    /\ uid ev = Some (int_str (task_id t))
    /\ description ev =
         match task_description t with
         | Some text => if decide (text = "") then None else Some text
         | None => None
         end.
Proof.
  intros Hdue Hadd. pose proof (date_add_day_inv _ _ Hadd) as Hord.
  unfold_mapper. rewrite Hdue. simpl. rewrite Hadd.
  eexists. repeat split; try assumption.
  cbn [description]. unfold or_None, truthy.
  destruct (task_description t) as [[|a text]|]; reflexivity.
Qed.

(** X2: whatever the item and the clock, an event that the mapper returns
    is well formed: start and end are of one class; for timestamps the end
    is exactly one hour after the start, in the same zone, and the start is
    a valid timestamp; for dates the end is the day after the start and a
    valid date; so end > start.  Location, recurrence id and recurrence
    rule are none, and the uid is the stringified id of the source item. *)
Theorem returned_event_is_well_formed item key w ev w' :
  GrocyCalendarEvent DEFAULT_TIME_ZONE item key w = (inr ev, w') ->
  gt (end_ ev) (start ev) = Some true
  /\ match start ev, end_ ev with
     | OfDateTime s, OfDateTime e =>
         wall e = wall s + US_PER_HOUR /\ dt_tzinfo s = dt_tzinfo e /\ datetime_valid s
     | OfDate s, OfDate e =>
         toordinal e = toordinal s + 1 /\ date_valid e
     | _, _ => False
     end
  /\ location ev = None /\ recurrence_id ev = None /\ rrule ev = None
  /\ exists id, source_id item = Some id /\ uid ev = Some (int_str id).
Proof.
  intros Hrun.
  mapper_cases item; try discriminate Hrun; injection Hrun as <- _;
    cbn [start end_ location recurrence_id rrule uid];
    match goal with
    | H : datetime_sub _ _ = Some _ |- _ =>
        destruct (hour_window_shape _ _ H) as [Hgt Hshape]
    | H : date_add _ _ = Some _ |- _ =>
        destruct (day_window_shape _ _ H) as [Hgt Hshape]
    end;
    (split; [exact Hgt|]); (split; [exact Hshape|]);
    repeat split; eauto.
Qed.

(** X3: an empty description never reaches the calendar: the description
    of a returned event is none when the item offers none or the empty
    string (and always for a product), and the item's own text
    otherwise. *)
Theorem description_is_text_or_none item key w ev w' :
  GrocyCalendarEvent DEFAULT_TIME_ZONE item key w = (inr ev, w') ->
  description ev <> Some ""
  /\ description ev =
       match source_description item with
       | Some text => if decide (text = "") then None else Some text
       | None => None
       end.
Proof.
  intros Hrun.
  mapper_cases item; try discriminate Hrun; injection Hrun as <- _;
    cbn [description]; unfold or_None, truthy;
    repeat match goal with
      | |- context [match ?o with Some _ => _ | None => _ end] =>
          destruct o as [[|? ?]|]
      end;
    split; (discriminate || reflexivity).
Qed.


(** X5: for a date-only item (meal plan entry, product, task) that carries
    a valid date, the mapper raises [OverflowError] exactly when that date
    is 9999-12-31. *)
Theorem dated_item_overflows_at_date_max item key w D :
  date_field item = Some (Some D) ->
  date_valid D ->
  fst (GrocyCalendarEvent DEFAULT_TIME_ZONE item key w) = inl OverflowError
  <-> D = date_max.
Proof.
  intros Hfield Hvalid. rewrite <- (date_add_day_None D Hvalid).
  mapper_cases item; try discriminate Hfield; injection Hfield as ->;
    match goal with H : date_add D _ = _ |- _ => rewrite H end;
    split; (discriminate || reflexivity).
Qed.


(** X7: the mapper reads the clock once when the item is of a supported
    kind and carries no time of its own, and not at all otherwise, whether
    it returns or raises. *)
Theorem mapper_reads_clock_when_undated item key w :
  snd (GrocyCalendarEvent DEFAULT_TIME_ZONE item key w)
  = if undated item then tick w else w.
Proof.
  mapper_cases item; reflexivity.
Qed.

End MapperProperties.

(** ** The adapter over a cached list *)

Section AdapterProperties.

Variable DEFAULT_TIME_ZONE : tzinfo.

Lemma async_get_events_comprehension self start_date end_date w cached :
  data (coordinator self) !! key (entity_description self) = Some cached ->
  async_get_events DEFAULT_TIME_ZONE self start_date end_date w
  = comprehension DEFAULT_TIME_ZONE (key (entity_description self)) cached w.
Proof.
  intros Hdata. unfold async_get_events. rewrite Hdata.
  destruct cached; reflexivity.
Qed.


Lemma mapper_ignores_key item k1 k2 w ev w' :
  GrocyCalendarEvent DEFAULT_TIME_ZONE item k1 w = (inr ev, w') ->
  GrocyCalendarEvent DEFAULT_TIME_ZONE item k2 w = (inr ev, w').
Proof.
  intros Hrun. mapper_cases item; try discriminate Hrun; assumption.
Qed.

Lemma mapper_uid item key w ev w' :
  GrocyCalendarEvent DEFAULT_TIME_ZONE item key w = (inr ev, w') ->
  exists id, source_id item = Some id /\ uid ev = Some (int_str id).
Proof.
  intros Hrun.
  mapper_cases item; try discriminate Hrun; injection Hrun as <- _; eauto.
Qed.

Lemma mapper_world item key w r w' :
  GrocyCalendarEvent DEFAULT_TIME_ZONE item key w = (r, w') ->
  w' = if undated item then tick w else w.
Proof.
  intros Hrun. mapper_cases item; injection Hrun as _ <-; reflexivity.
Qed.


(** The comprehension, one item at a time. *)
Lemma comprehension_cons k item rest w :
  comprehension DEFAULT_TIME_ZONE k (item :: rest) w
  = if is_not_None item
    then match GrocyCalendarEvent DEFAULT_TIME_ZONE item k w with
         | (inr ev, w1) =>
             match comprehension DEFAULT_TIME_ZONE k rest w1 with
             | (inr evs, w2) => (inr (ev :: evs), w2)
             | (inl e, w2) => (inl e, w2)
             end
         | (inl e, w1) => (inl e, w1)
         end
    else comprehension DEFAULT_TIME_ZONE k rest w.
Proof.
  simpl. destruct (is_not_None item); [|reflexivity].
  unfold mbind, M_bind, bind.
  destruct (GrocyCalendarEvent _ item k w) as [[e|ev] w1]; [reflexivity|].
  destruct (comprehension _ k rest w1) as [[e|evs] w2]; reflexivity.
Qed.

(** X8: a cached list that holds nothing but null entries (the empty list
    included) gives no events, and the clock is not read. *)
Theorem null_entries_give_no_events self start_date end_date w cached :
  data (coordinator self) !! key (entity_description self) = Some cached ->
  Forall (fun item => item = PyNone) cached ->
  async_get_events DEFAULT_TIME_ZONE self start_date end_date w = (inr [], w).
Proof.
  intros Hdata Hnull. rewrite (async_get_events_comprehension _ _ _ _ _ Hdata).
  clear Hdata. induction Hnull as [|item rest -> _ IH]; [reflexivity|].
  rewrite comprehension_cons. exact IH.
Qed.

(** X9: when a query returns, there is one event for each non-null item of
    the cached list, every such item is of a supported kind, and the uids
    of the events are the stringified ids of those items, in the order of
    the list. *)
Theorem returned_events_follow_cache self start_date end_date w cached evs w' :
  data (coordinator self) !! key (entity_description self) = Some cached ->
  async_get_events DEFAULT_TIME_ZONE self start_date end_date w = (inr evs, w') ->
  length evs = length (List.filter is_not_None cached)
  /\ Forall (fun item => supported item = true) (List.filter is_not_None cached)
  /\ uid <$> evs
     = (fun item => int_str <$> source_id item) <$> List.filter is_not_None cached.
Proof.
  intros Hdata. rewrite (async_get_events_comprehension _ _ _ _ _ Hdata).
  clear Hdata. set (k := key (entity_description self)). clearbody k.
  revert w evs. induction cached as [|item rest IH]; intros w evs Hrun.
  - injection Hrun as <- _. repeat split; constructor.
  - rewrite comprehension_cons in Hrun. cbn [List.filter].
    destruct (is_not_None item) eqn:Hnn; [|exact (IH _ _ Hrun)].
    destruct (GrocyCalendarEvent _ item k w) as [[e|ev] w1] eqn:Hitem; [discriminate|].
    destruct (comprehension _ k rest w1) as [[e|evs1] w2] eqn:Hrest; [discriminate|].
    injection Hrun as <- <-.
    destruct (IH _ _ Hrest) as (Hlen & Hsup & Huid).
    destruct (mapper_uid _ _ _ _ _ Hitem) as (id & Hid & Hev).
    rewrite !fmap_cons, Huid, Hid, Hev. cbn [length]. rewrite Hlen.
    repeat split. constructor; [|exact Hsup].
    destruct item; try discriminate Hid; reflexivity.
Qed.


(** X11: the first item the mapper fails on ends the query: when the items
    before it were mapped, the query raises the exception of that item,
    whatever it is, and returns none of the events of the other items. *)
Theorem first_failure_ends_the_query self start_date end_date w
    before item after evs w1 e w2 :
  data (coordinator self) !! key (entity_description self)
  = Some (before ++ item :: after) ->
  is_not_None item = true ->
  comprehension DEFAULT_TIME_ZONE (key (entity_description self)) before w = (inr evs, w1) ->
  GrocyCalendarEvent DEFAULT_TIME_ZONE item (key (entity_description self)) w1 = (inl e, w2) ->
  async_get_events DEFAULT_TIME_ZONE self start_date end_date w = (inl e, w2).
Proof.
  intros Hdata Hnn Hbefore Hitem.
  rewrite (async_get_events_comprehension _ _ _ _ _ Hdata).
  clear Hdata. set (k := key (entity_description self)) in *. clearbody k.
  revert w evs Hbefore. induction before as [|x before IH]; intros w evs Hbefore.
  - injection Hbefore as _ <-. simpl app.
    rewrite comprehension_cons, Hnn, Hitem. reflexivity.
  - simpl app. rewrite comprehension_cons in *.
    destruct (is_not_None x); [|exact (IH _ _ Hbefore)].
    destruct (GrocyCalendarEvent _ x k w) as [[ex|ev] w3]; [discriminate|].
    destruct (comprehension _ k before w3) as [[ex|evs3] w4] eqn:Hrest; [discriminate|].
    injection Hbefore as _ <-. rewrite (IH _ _ Hrest). reflexivity.
Qed.


(** X13: a query that returns has read the clock once for every cached
    item that carries no time of its own, and has left the clock itself
    untouched. *)
Theorem clock_reads_of_a_query self start_date end_date w cached evs w' :
  data (coordinator self) !! key (entity_description self) = Some cached ->
  async_get_events DEFAULT_TIME_ZONE self start_date end_date w = (inr evs, w') ->
  clock w' = clock w
  /\ ticks w' = (ticks w + length (List.filter undated cached))%nat.
Proof.
  intros Hdata. rewrite (async_get_events_comprehension _ _ _ _ _ Hdata).
  clear Hdata. set (k := key (entity_description self)). clearbody k.
  revert w evs. induction cached as [|item rest IH]; intros w evs Hrun.
  - injection Hrun as _ <-. simpl. split; [reflexivity|lia].
  - rewrite comprehension_cons in Hrun. cbn [List.filter].
    destruct (is_not_None item) eqn:Hnn.
    + destruct (GrocyCalendarEvent _ item k w) as [[ex|ev] w1] eqn:Hitem; [discriminate|].
      destruct (comprehension _ k rest w1) as [[ex|evs1] w2] eqn:Hrest; [discriminate|].
      injection Hrun as _ <-.
      destruct (IH _ _ Hrest) as [Hclock Hticks].
      rewrite (mapper_world _ _ _ _ _ Hitem) in Hclock, Hticks.
      destruct (undated item); cbn [length]; simpl in Hclock, Hticks;
        split; try assumption; lia.
    + destruct item; try discriminate Hnn. exact (IH _ _ Hrun).
Qed.

(** X14: an adapter reads its own category only: storing a list under
    another key of the cache, or deleting another key, changes nothing in
    the outcome of a query. *)
Theorem other_categories_are_not_read self start_date end_date w k cached :
  k <> key (entity_description self) ->
  async_get_events DEFAULT_TIME_ZONE
    (with_cache self (<[k := cached]> (data (coordinator self)))) start_date end_date w
  = async_get_events DEFAULT_TIME_ZONE self start_date end_date w
  /\ async_get_events DEFAULT_TIME_ZONE
       (with_cache self (delete k (data (coordinator self)))) start_date end_date w
     = async_get_events DEFAULT_TIME_ZONE self start_date end_date w.
Proof.
  intros Hne. unfold async_get_events, with_cache. simpl.
  rewrite lookup_insert_ne, lookup_delete_ne by exact Hne.
  split; reflexivity.
Qed.

(** X15: the mapping is chosen by the class of the item, not by the
    category of the adapter: two adapters of different categories that find
    the same list in their caches return the same events. *)
Theorem dispatch_is_by_type_not_category self1 self2 start_date end_date w cached evs w' :
  data (coordinator self1) !! key (entity_description self1) = Some cached ->
  data (coordinator self2) !! key (entity_description self2) = Some cached ->
  async_get_events DEFAULT_TIME_ZONE self1 start_date end_date w = (inr evs, w') ->
  async_get_events DEFAULT_TIME_ZONE self2 start_date end_date w = (inr evs, w').
Proof.
  intros Hdata1 Hdata2.
  rewrite (async_get_events_comprehension _ _ _ _ _ Hdata1).
  rewrite (async_get_events_comprehension _ _ _ _ _ Hdata2).
  clear Hdata1 Hdata2.
  set (k1 := key (entity_description self1)). set (k2 := key (entity_description self2)).
  clearbody k1 k2. revert w evs.
  induction cached as [|item rest IH]; intros w evs Hrun; [exact Hrun|].
  rewrite comprehension_cons in *. destruct (is_not_None item); [|exact (IH _ _ Hrun)].
  destruct (GrocyCalendarEvent _ item k1 w) as [[e|ev] w1] eqn:Hitem; [discriminate|].
  rewrite (mapper_ignores_key _ _ k2 _ _ _ Hitem).
  destruct (comprehension _ k1 rest w1) as [[e|evs1] w2] eqn:Hrest; [discriminate|].
  injection Hrun as <- <-. rewrite (IH _ _ Hrest). reflexivity.
Qed.

End AdapterProperties.

(** ** Platform setup *)

Lemma setup_loop c entities log descriptions :
  foldl setup_step (c, entities, log) descriptions
  = (mk_Coordinator (cache c) (available_entities c)
       (coordinator_entities c ++ new_entities c descriptions),
     entities ++ new_entities c descriptions,
     log ++ new_log c descriptions).
Proof.
  revert c entities log.
  induction descriptions as [|d rest IH]; intros c entities log.
  - unfold new_entities, new_log. simpl. rewrite !app_nil_r.
    destruct c; reflexivity.
  - simpl. unfold new_entities, new_log in *. simpl.
    destruct (exists_fn d (available_entities c)) eqn:Hd; rewrite IH; simpl.
    + rewrite <- !app_assoc. reflexivity.
    + rewrite <- !app_assoc. reflexivity.
Qed.

Section SetupProperties.

Variable const : Const.

Lemma setup_outcome hass c :
  hass_data hass !! DOMAIN const = Some c ->
  async_setup_entry const hass
  = inr (mk_SetupResult
           (mk_Coordinator (cache c) (available_entities c)
              (coordinator_entities c ++ new_entities c (CALENDARS const)))
           (new_entities c (CALENDARS const)) true (new_log c (CALENDARS const))).
Proof.
  intros Hc. unfold async_setup_entry. rewrite Hc, setup_loop. reflexivity.
Qed.

Lemma new_entities_keys c :
  (fun e => key (entity_description e)) <$> new_entities c (CALENDARS const)
  = List.filter (fun k => listed k (available_entities c)) (CALENDAR_KEYS const).
Proof.
  unfold new_entities, CALENDARS, CALENDAR_KEYS, GrocyCalendarEntityDescription_init.
  simpl.
  repeat (match goal with |- context [listed ?k ?a] => destruct (listed k a) end; simpl);
    reflexivity.
Qed.

Lemma new_log_keys c :
  new_log c (CALENDARS const)
  = not_available
      <$> List.filter (fun k => negb (listed k (available_entities c))) (CALENDAR_KEYS const).
Proof.
  unfold new_log, CALENDARS, CALENDAR_KEYS, GrocyCalendarEntityDescription_init.
  simpl.
  repeat (match goal with |- context [listed ?k ?a] => destruct (listed k a) end; simpl);
    reflexivity.
Qed.

Lemma new_entities_shape c :
  Forall (fun e => coordinator e = cache c
                   /\ entity_registry_enabled_default (entity_description e) = false)
         (new_entities c (CALENDARS const)).
Proof.
  unfold new_entities, CALENDARS, GrocyCalendarEntityDescription_init. simpl.
  repeat (match goal with |- context [listed ?k ?a] => destruct (listed k a) end; simpl);
    repeat constructor.
Qed.

(** X16: setup creates an entity for exactly those of the five categories
    that the coordinator lists as available, in the order of the table, and
    hands them to [async_add_entities] with [update_before_add] true.
    Every entity reads the coordinator's cache and is disabled in the
    registry by default. *)
Theorem setup_adds_the_available_calendars hass c :
  hass_data hass !! DOMAIN const = Some c ->
  exists r,
    async_setup_entry const hass = inr r
    /\ (fun e => key (entity_description e)) <$> added r
       = List.filter (fun k => listed k (available_entities c)) (CALENDAR_KEYS const)
    /\ update_before_add r = true
    /\ Forall (fun e => coordinator e = cache c
                        /\ entity_registry_enabled_default (entity_description e) = false)
              (added r).
Proof.
  intros Hc. eexists. split; [apply setup_outcome, Hc|]. simpl.
  split; [apply new_entities_keys|]. split; [reflexivity|apply new_entities_shape].
Qed.

(** X17: setup appends the entities it hands over to
    [coordinator.entities], after the ones that were there and in the same
    order; the cache and the list of available categories stay as they
    were. *)
Theorem setup_extends_the_registry hass c r :
  hass_data hass !! DOMAIN const = Some c ->
  async_setup_entry const hass = inr r ->
  coordinator_after r
  = mk_Coordinator (cache c) (available_entities c) (coordinator_entities c ++ added r).
Proof.
  intros Hc Hrun. rewrite (setup_outcome _ _ Hc) in Hrun.
  injection Hrun as <-. reflexivity.
Qed.

(** X18: every category of the table is either given an entity or logged
    as not available, never both: the debug messages name the categories
    that are not listed, in the order of the table, and entities and
    messages number five together. *)
Theorem setup_logs_the_unavailable hass c r :
  hass_data hass !! DOMAIN const = Some c ->
  async_setup_entry const hass = inr r ->
  debug_log r
  = not_available
      <$> List.filter (fun k => negb (listed k (available_entities c))) (CALENDAR_KEYS const)
  /\ (length (added r) + length (debug_log r) = 5)%nat.
Proof.
  intros Hc Hrun. rewrite (setup_outcome _ _ Hc) in Hrun.
  injection Hrun as <-. simpl. split; [apply new_log_keys|].
  unfold new_entities, new_log, CALENDARS, GrocyCalendarEntityDescription_init. simpl.
  repeat (match goal with |- context [listed ?k ?a] => destruct (listed k a) end; simpl);
    reflexivity.
Qed.

(** X19: setup looks at the list of available categories through
    membership only: two coordinators over the same cache whose lists have
    the same members (in any order, with any repetitions) get the same
    entities and the same log. *)
Theorem setup_sees_membership_only hass1 hass2 c1 c2 r1 r2 :
  hass_data hass1 !! DOMAIN const = Some c1 ->
  hass_data hass2 !! DOMAIN const = Some c2 ->
  cache c1 = cache c2 ->
  (forall k, k ∈ available_entities c1 <-> k ∈ available_entities c2) ->
  async_setup_entry const hass1 = inr r1 ->
  async_setup_entry const hass2 = inr r2 ->
  added r1 = added r2 /\ debug_log r1 = debug_log r2.
Proof.
  intros Hc1 Hc2 Hcache Hsame Hrun1 Hrun2.
  rewrite (setup_outcome _ _ Hc1) in Hrun1. rewrite (setup_outcome _ _ Hc2) in Hrun2.
  injection Hrun1 as <-. injection Hrun2 as <-. simpl.
  assert (Hlisted : forall k,
            listed k (available_entities c1) = listed k (available_entities c2)).
  { intros k. unfold listed. apply bool_decide_ext, Hsame. }
  unfold new_entities, new_log, CALENDARS, GrocyCalendarEntityDescription_init. simpl.
  rewrite !Hlisted, Hcache. split; reflexivity.
Qed.

(** X20: when the five category keys are distinct, no category gets two
    entities in one run of setup, however often the coordinator lists
    it. *)
Theorem setup_adds_no_category_twice hass c r :
  NoDup (CALENDAR_KEYS const) ->
  hass_data hass !! DOMAIN const = Some c ->
  async_setup_entry const hass = inr r ->
  NoDup ((fun e => key (entity_description e)) <$> added r).
Proof.
  intros Hdistinct Hc Hrun. rewrite (setup_outcome _ _ Hc) in Hrun.
  injection Hrun as <-. simpl. rewrite new_entities_keys.
  apply NoDup_ListNoDup, List.NoDup_filter, NoDup_ListNoDup, Hdistinct.
Qed.

(** X21: setup does not look at the registry: a second run over the
    coordinator that the first run left creates the same entities again
    and appends them once more. *)
Theorem setup_twice_registers_twice hass hass' c r :
  hass_data hass !! DOMAIN const = Some c ->
  async_setup_entry const hass = inr r ->
  hass_data hass' !! DOMAIN const = Some (coordinator_after r) ->
  exists r',
    async_setup_entry const hass' = inr r'
    /\ added r' = added r
    /\ coordinator_entities (coordinator_after r')
       = coordinator_entities c ++ added r ++ added r.
Proof.
  intros Hc Hrun Hc'. rewrite (setup_outcome _ _ Hc) in Hrun.
  injection Hrun as <-. simpl in Hc'.
  eexists. split; [apply setup_outcome, Hc'|]. simpl.
  split; [reflexivity|]. unfold new_entities. simpl.
  rewrite <- app_assoc. reflexivity.
Qed.

(** X22: the two edges of setup.  Without a coordinator under the domain
    key, [hass.data[DOMAIN]] raises [KeyError] and nothing is added.  With
    a coordinator that lists no category, no entity is created and the
    registry is left as it was, [async_add_entities] is still called (with
    the empty list), and all five categories are logged. *)
Theorem setup_edges hass :
  (hass_data hass !! DOMAIN const = None ->
   async_setup_entry const hass = inl (KeyError (DOMAIN const)))
  /\ (forall c,
        hass_data hass !! DOMAIN const = Some c ->
        available_entities c = [] ->
        async_setup_entry const hass
        = inr (mk_SetupResult c [] true (not_available <$> CALENDAR_KEYS const))).
Proof.
  split.
  - intros Hnone. unfold async_setup_entry. rewrite Hnone. reflexivity.
  - intros c Hc Hempty. rewrite (setup_outcome _ _ Hc).
    unfold new_entities, new_log, CALENDARS, CALENDAR_KEYS,
      GrocyCalendarEntityDescription_init, listed.
    rewrite Hempty. simpl.
    rewrite ?bool_decide_eq_false_2 by apply not_elem_of_nil. simpl.
    rewrite app_nil_r. destruct c; simpl in *; subst; reflexivity.
Qed.

End SetupProperties.

(** ** The further properties at concrete inputs *)

Lemma task_with_due_date_witness :
  exists ev,
    GrocyCalendarEvent UTC (PyTask water_plants) "tasks" still = (inr ev, still)
    /\ start ev = OfDate (mk_date 738640)
    /\ end_ ev = OfDate (mk_date 738641)
    /\ toordinal (mk_date 738641) = toordinal (mk_date 738640) + 1
    /\ summary ev = "Water the plants"
    /\ uid ev = Some "6"
    /\ description ev = None.
Proof.
  apply (task_with_due_date UTC water_plants "tasks" still (mk_date 738640) (mk_date 738641));
    reflexivity.
Defined.

Lemma returned_event_is_well_formed_witness :
  gt (end_ sweep_event) (start sweep_event) = Some true
  /\ (wall (mk_datetime (738640 * US_PER_DAY) (Some UTC))
      = wall (mk_datetime (738640 * US_PER_DAY - US_PER_HOUR) (Some UTC)) + US_PER_HOUR
      /\ Some UTC = Some UTC
      /\ datetime_valid (mk_datetime (738640 * US_PER_DAY - US_PER_HOUR) (Some UTC)))
  /\ location sweep_event = None /\ recurrence_id sweep_event = None
  /\ rrule sweep_event = None
  /\ exists id, source_id (PyChore sweep) = Some id /\ uid sweep_event = Some (int_str id).
Proof.
  apply (returned_event_is_well_formed UTC (PyChore sweep) "chores" still sweep_event still).
  reflexivity.
Defined.

Lemma description_is_text_or_none_witness :
  description sweep_event <> Some "" /\ description sweep_event = None.
Proof.
  apply (description_is_text_or_none UTC (PyChore sweep) "chores" still sweep_event still).
  reflexivity.
Defined.


Lemma dated_item_overflows_at_date_max_witness :
  fst (GrocyCalendarEvent UTC (PyProduct salt) "expiring_products" still) = inl OverflowError
  <-> date_max = date_max.
Proof.
  apply (dated_item_overflows_at_date_max UTC (PyProduct salt) "expiring_products" still date_max).
  - reflexivity.
  - unfold date_valid, date_max, MAXORDINAL. simpl. lia.
Defined.


Lemma null_entries_give_no_events_witness :
  async_get_events UTC (tasks_entity {[ "tasks" := [PyNone; PyNone] ]}) morning morning still
  = (inr [], still).
Proof.
  apply (null_entries_give_no_events UTC (tasks_entity {[ "tasks" := [PyNone; PyNone] ]})
           morning morning still [PyNone; PyNone]).
  - reflexivity.
  - repeat constructor.
Defined.

Lemma returned_events_follow_cache_witness :
  length dated_events = length (List.filter is_not_None dated_cache)
  /\ Forall (fun item => supported item = true) (List.filter is_not_None dated_cache)
  /\ uid <$> dated_events
     = (fun item => int_str <$> source_id item) <$> List.filter is_not_None dated_cache.
Proof.
  apply (returned_events_follow_cache UTC (tasks_entity {[ "tasks" := dated_cache ]})
           morning morning still dated_cache dated_events (tick still));
    reflexivity.
Defined.


Lemma first_failure_ends_the_query_witness :
  async_get_events UTC (tasks_entity {[ "tasks" := spoilt_cache ]}) morning morning still
  = (inl OverflowError, tick still).
Proof.
  apply (first_failure_ends_the_query UTC (tasks_entity {[ "tasks" := spoilt_cache ]})
           morning morning still [PyTask call_plumber] (PyProduct salt) [PyChore sweep]
           [call_plumber_event] (tick still) OverflowError (tick still));
    reflexivity.
Defined.


Lemma clock_reads_of_a_query_witness :
  clock (tick still) = clock still
  /\ ticks (tick still) = (ticks still + length (List.filter undated dated_cache))%nat.
Proof.
  apply (clock_reads_of_a_query UTC (tasks_entity {[ "tasks" := dated_cache ]})
           morning morning still dated_cache dated_events (tick still));
    reflexivity.
Defined.

Lemma other_categories_are_not_read_witness :
  async_get_events UTC
    (with_cache (tasks_entity {[ "tasks" := dated_cache ]})
       (<[ "chores" := mixed_cache ]>
          (data (coordinator (tasks_entity {[ "tasks" := dated_cache ]})))))
    morning morning still
  = async_get_events UTC (tasks_entity {[ "tasks" := dated_cache ]}) morning morning still
  /\ async_get_events UTC
       (with_cache (tasks_entity {[ "tasks" := dated_cache ]})
          (delete "chores" (data (coordinator (tasks_entity {[ "tasks" := dated_cache ]})))))
       morning morning still
     = async_get_events UTC (tasks_entity {[ "tasks" := dated_cache ]}) morning morning still.
Proof.
  apply (other_categories_are_not_read UTC (tasks_entity {[ "tasks" := dated_cache ]})
           morning morning still "chores" mixed_cache).
  discriminate.
Defined.

Lemma dispatch_is_by_type_not_category_witness :
  async_get_events UTC (chores_entity {[ "chores" := dated_cache ]}) morning morning still
  = (inr dated_events, tick still).
Proof.
  apply (dispatch_is_by_type_not_category UTC
           (tasks_entity {[ "tasks" := dated_cache ]})
           (chores_entity {[ "chores" := dated_cache ]})
           morning morning still dated_cache dated_events (tick still));
    reflexivity.
Defined.

Lemma setup_adds_the_available_calendars_witness :
  exists r,
    async_setup_entry grocy_const (sample_hass ["tasks"; "chores"; "tasks"]) = inr r
    /\ (fun e => key (entity_description e)) <$> added r = ["chores"; "tasks"]
    /\ update_before_add r = true
    /\ Forall (fun e => coordinator e = mk_coordinator ∅
                        /\ entity_registry_enabled_default (entity_description e) = false)
              (added r).
Proof.
  apply (setup_adds_the_available_calendars
           grocy_const
           (sample_hass ["tasks"; "chores"; "tasks"])
           (fresh_coordinator ["tasks"; "chores"; "tasks"])).
  reflexivity.
Defined.

Lemma setup_extends_the_registry_witness :
  coordinator_after (sample_result ["tasks"; "chores"; "tasks"])
  = mk_Coordinator (mk_coordinator ∅) ["tasks"; "chores"; "tasks"]
      ([] ++ added (sample_result ["tasks"; "chores"; "tasks"])).
Proof.
  apply (setup_extends_the_registry
           grocy_const
           (sample_hass ["tasks"; "chores"; "tasks"])
           (fresh_coordinator ["tasks"; "chores"; "tasks"])
           (sample_result ["tasks"; "chores"; "tasks"]));
    reflexivity.
Defined.

Lemma setup_logs_the_unavailable_witness :
  debug_log (sample_result ["tasks"; "chores"; "tasks"])
  = [ not_available "batteries"; not_available "expiring_products";
      not_available "meal_plan" ]
  /\ (length (added (sample_result ["tasks"; "chores"; "tasks"]))
      + length (debug_log (sample_result ["tasks"; "chores"; "tasks"])) = 5)%nat.
Proof.
  apply (setup_logs_the_unavailable
           grocy_const
           (sample_hass ["tasks"; "chores"; "tasks"])
           (fresh_coordinator ["tasks"; "chores"; "tasks"])
           (sample_result ["tasks"; "chores"; "tasks"]));
    reflexivity.
Defined.

Lemma setup_sees_membership_only_witness :
  added (sample_result ["tasks"; "chores"; "tasks"]) = added (sample_result ["chores"; "tasks"])
  /\ debug_log (sample_result ["tasks"; "chores"; "tasks"])
     = debug_log (sample_result ["chores"; "tasks"]).
Proof.
  apply (setup_sees_membership_only
           grocy_const
           (sample_hass ["tasks"; "chores"; "tasks"]) (sample_hass ["chores"; "tasks"])
           (fresh_coordinator ["tasks"; "chores"; "tasks"])
           (fresh_coordinator ["chores"; "tasks"])
           (sample_result ["tasks"; "chores"; "tasks"]) (sample_result ["chores"; "tasks"]));
    try reflexivity.
  intros k. simpl. rewrite !elem_of_cons, !elem_of_nil. tauto.
Defined.

Lemma setup_adds_no_category_twice_witness :
  NoDup ((fun e => key (entity_description e))
           <$> added (sample_result ["tasks"; "chores"; "tasks"])).
Proof.
  apply (setup_adds_no_category_twice
           grocy_const
           (sample_hass ["tasks"; "chores"; "tasks"])
           (fresh_coordinator ["tasks"; "chores"; "tasks"])
           (sample_result ["tasks"; "chores"; "tasks"]));
    try reflexivity.
  apply (bool_decide_unpack _). vm_compute. exact I.
Defined.

Lemma setup_twice_registers_twice_witness :
  exists r',
    async_setup_entry grocy_const (mk_hass {[ "grocy" := coordinator_after (sample_result ["chores"; "tasks"]) ]})
    = inr r'
    /\ added r' = added (sample_result ["chores"; "tasks"])
    /\ coordinator_entities (coordinator_after r')
       = [] ++ added (sample_result ["chores"; "tasks"])
            ++ added (sample_result ["chores"; "tasks"]).
Proof.
  apply (setup_twice_registers_twice
           grocy_const
           (sample_hass ["chores"; "tasks"])
           (mk_hass {[ "grocy" := coordinator_after (sample_result ["chores"; "tasks"]) ]})
           (fresh_coordinator ["chores"; "tasks"])
           (sample_result ["chores"; "tasks"]));
    reflexivity.
Defined.

Lemma setup_edges_witness :
  async_setup_entry grocy_const (mk_hass ∅) = inl (KeyError "grocy")
  /\ async_setup_entry grocy_const (sample_hass [])
     = inr (mk_SetupResult (fresh_coordinator []) [] true
              (not_available <$> ["batteries"; "chores"; "expiring_products"; "meal_plan";
                                  "tasks"])).
Proof.
  split.
  - apply (proj1 (setup_edges
                    grocy_const
                    (mk_hass ∅))).
    reflexivity.
  - apply (proj2 (setup_edges
                    grocy_const
                    (sample_hass [])) (fresh_coordinator []));
      reflexivity.
Defined.
